(** * Alpyca: the [Device] client of [alpaca.py]

    A shallow embedding of the class [Device] of [alpaca.py] and of the
    Python built-ins it calls, followed by the properties of the
    specification.

    - Module [Py]: the Python side.  Strings are sequences of Unicode code
      points, objects are the values that [json.loads] and the callers of
      the class can produce, exceptions are values of a result type, and
      the operators the module uses ([%] on strings, [str.split],
      [str.strip], [!= 0], [== None], subscription) are functions.
    - Module [Http]: what [requests] shows to the class, the arguments of
      a call to [requests.get] or [requests.put] and a response with a
      status code and a body.
    - Module [Device]: the class, method by method, in a state and
      exception monad whose state holds the object [self], the server and
      the log of the calls made to [requests]. *)

From Stdlib Require Import ZArith NArith List String Ascii Bool Lia.
From Stdlib Require Import SpecFloat.
From Stdlib Require DecimalZ.
Import ListNotations.

Set Implicit Arguments.
Set Warnings "-register-all".

Local Open Scope Z_scope.

(* ================================================================== *)
(** ** Python values and built-ins *)

Module Py.

(** A Python [str]: its code points, in order. *)
Definition str := list N.

(** A literal of the source, written as a Rocq string of ASCII characters. *)
Definition lit (s : string) : str := map N_of_ascii (list_ascii_of_string s).

(** The objects the class handles: what [json.loads] yields ([None],
    [bool], [int], [float], [str], [list], [dict] with string keys) and
    the tuple of [*args].  A float is its IEEE 754 decomposition; a [dict]
    is its items in insertion order, looked up from the front. *)
Inductive value : Type :=
| VNone
| VBool (b : bool)
| VInt (z : Z)
| VFloat (f : spec_float)
| VStr (s : str)
| VList (l : list value)
| VTuple (l : list value)
| VDict (items : list (str * value)).

(** The exceptions that can leave a method.  [Exception] is the one the
    class raises itself, with its single argument; the others come from
    the built-ins and from [requests]. *)
Inductive exn : Type :=
| Exception (arg : value)
| KeyError (key : str)
| TypeError
| ValueError
| OverflowError
| AttributeError
| JSONDecodeError
| RequestException.

Inductive result (A : Type) : Type :=
| Ok (a : A)
| Raise (e : exn).
Arguments Ok {A} a.
Arguments Raise {A} e.

Fixpoint str_eqb (a b : str) : bool :=
  match a, b with
  | [], [] => true
  | x :: a', y :: b' => (x =? y)%N && str_eqb a' b'
  | _, _ => false
  end.

(** [d[key]] on a dict given by its items. *)
Fixpoint lookup (key : str) (items : list (str * value)) : option value :=
  match items with
  | [] => None
  | (k, v) :: rest => if str_eqb key k then Some v else lookup key rest
  end.

(** [obj[key]] with a string key: only a dict can be subscripted by a
    string, and a missing key is a [KeyError]. *)
Definition getitem (obj : value) (key : str) : result value :=
  match obj with
  | VDict items =>
      match lookup key items with
      | Some v => Ok v
      | None => Raise (KeyError key)
      end
  | _ => Raise TypeError
  end.

(** [x != 0]: numbers compare by value ([False] is [0], [0.0] and [-0.0]
    are [0]), every other object differs from [0]. *)
Definition ne_zero (x : value) : bool :=
  match x with
  | VBool b => b
  | VInt z => negb (z =? 0)
  | VFloat (S754_zero _) => false
  | _ => true
  end.

(** [x == None]. *)
Definition eq_None (x : value) : bool :=
  match x with
  | VNone => true
  | _ => false
  end.

(** *** Decimal rendering of an [int] *)

Fixpoint uint_digits (u : Decimal.uint) : str :=
  match u with
  | Decimal.Nil => []
  | Decimal.D0 u' => 48%N :: uint_digits u'
  | Decimal.D1 u' => 49%N :: uint_digits u'
  | Decimal.D2 u' => 50%N :: uint_digits u'
  | Decimal.D3 u' => 51%N :: uint_digits u'
  | Decimal.D4 u' => 52%N :: uint_digits u'
  | Decimal.D5 u' => 53%N :: uint_digits u'
  | Decimal.D6 u' => 54%N :: uint_digits u'
  | Decimal.D7 u' => 55%N :: uint_digits u'
  | Decimal.D8 u' => 56%N :: uint_digits u'
  | Decimal.D9 u' => 57%N :: uint_digits u'
  end.

(** [str(z)] for an [int] within [int_max_str_digits] (below): the
    decimal digits, after [-] when negative. *)
Definition decimal (z : Z) : str :=
  match Z.to_int z with
  | Decimal.Pos u => uint_digits u
  | Decimal.Neg u => 45%N :: uint_digits u
  end.

(** The number of decimal digits of an [int], its sign apart. *)
Definition digits (z : Z) : nat := List.length (decimal (Z.abs z)).

(** [sys.int_max_str_digits] as the interpreter sets it: converting an
    [int] of more digits to [str] is a [ValueError], and so is reading
    one from text, so that a decoded JSON body holds none. *)
Definition int_max_str_digits : nat := 4300.

(** The ints that [str] and [%d] convert. *)
Definition convertible (z : Z) : bool :=
  (digits z <=? int_max_str_digits)%nat.

(** [int(f)] for a float: truncation toward zero; NaN and the infinities
    have no integer. *)
Definition float_trunc (f : spec_float) : result Z :=
  match f with
  | S754_zero _ => Ok 0
  | S754_infinity _ => Raise OverflowError
  | S754_nan => Raise ValueError
  | S754_finite s m e =>
      let a := Z.shiftl (Z.pos m) e in
      Ok (if s then - a else a)
  end.

(** *** The [%] operator on strings *)

Section Format.

(** [str(x)] for an object that is not a [str]; its output is the
    interpreter's and nothing here depends on it. *)
Variable str_of : value -> str.

(** The [%s] conversion. *)
Definition conv_s (x : value) : str :=
  match x with
  | VStr s => s
  | _ => str_of x
  end.

(** The [%d] conversion: a number, rendered as the decimal of its integer
    part.  The numbers of a decoded body are within [int_max_str_digits];
    where the ints come from the caller, [Device.__init__] checks the
    limit. *)
Definition conv_d (x : value) : result str :=
  match x with
  | VInt z => Ok (decimal z)
  | VBool b => Ok (decimal (if b then 1 else 0))
  | VFloat f =>
      match float_trunc f with
      | Ok z => Ok (decimal z)
      | Raise e => Raise e
      end
  | _ => Raise TypeError
  end.

(** [fmt % args] for a tuple [args]: the format is read left to right,
    each conversion consumes the next argument, too few or too many
    arguments are a [TypeError].  [%s], [%d] and [%%] are the conversions
    of this module's format strings; any other one is refused. *)
Fixpoint format (fmt : str) (args : list value) : result str :=
  match fmt with
  | [] =>
      match args with
      | [] => Ok []
      | _ :: _ => Raise TypeError
      end
  | c :: fmt' =>
      if (c =? 37)%N then
        match fmt' with
        | [] => Raise ValueError
        | k :: fmt'' =>
            if (k =? 37)%N then
              match format fmt'' args with
              | Ok out => Ok (37%N :: out)
              | Raise e => Raise e
              end
            else if (k =? 115)%N then
              match args with
              | [] => Raise TypeError
              | x :: args' =>
                  match format fmt'' args' with
                  | Ok out => Ok (conv_s x ++ out)
                  | Raise e => Raise e
                  end
              end
            else if (k =? 100)%N then
              match args with
              | [] => Raise TypeError
              | x :: args' =>
                  match conv_d x with
                  | Ok digits =>
                      match format fmt'' args' with
                      | Ok out => Ok (digits ++ out)
                      | Raise e => Raise e
                      end
                  | Raise e => Raise e
                  end
              end
            else Raise ValueError
        end
      else
        match format fmt' args with
        | Ok out => Ok (c :: out)
        | Raise e => Raise e
        end
  end.

End Format.

(** *** [str.split] and [str.strip] *)

(** [s.split(sep)] for a separator of one character: the pieces between
    the occurrences of [sep], empty pieces included, so that [n]
    occurrences give [n + 1] pieces. *)
Fixpoint split (s : str) (sep : N) : list str :=
  match s with
  | [] => [[]]
  | c :: s' =>
      if (c =? sep)%N then [] :: split s' sep
      else
        match split s' sep with
        | piece :: pieces => (c :: piece) :: pieces
        | [] => [[c]]
        end
  end.

(** The attribute lookup [x.split] succeeds on a [str] only. *)
Definition split_of (x : value) (sep : N) : result (list str) :=
  match x with
  | VStr s => Ok (split s sep)
  | _ => Raise AttributeError
  end.

(** The characters [str.strip()] removes: those for which
    [str.isspace] holds. *)
Definition isspace (c : N) : bool :=
  ((9 <=? c) && (c <=? 13) || (28 <=? c) && (c <=? 32)
   || (c =? 133) || (c =? 160) || (c =? 5760)
   || (8192 <=? c) && (c <=? 8202)
   || (c =? 8232) || (c =? 8233) || (c =? 8239) || (c =? 8287)
   || (c =? 12288))%N.

Fixpoint lstrip (s : str) : str :=
  match s with
  | [] => []
  | c :: s' => if isspace c then lstrip s' else s
  end.

Definition rstrip (s : str) : str := List.rev (lstrip (List.rev s)).

(** [s.strip()]. *)
Definition strip (s : str) : str := rstrip (lstrip s).

(** [sep.join(pieces)] for a separator of one character; the inverse
    reading of [split], used to state what [split] returns. *)
Fixpoint join (sep : N) (pieces : list str) : str :=
  match pieces with
  | [] => []
  | [p] => p
  | p :: rest => p ++ sep :: join sep rest
  end.

End Py.

(* ================================================================== *)
(** ** What [requests] exchanges *)

Module Http.

Inductive verb : Type := GET | PUT.

(** A call [requests.get(url)] or [requests.put(url, data=data)]. *)
Record request : Type := mkRequest {
  method : verb;
  url : Py.str;
  data : option Py.value
}.

(** A [Response]: [status_code], and the body as [json()] decodes it,
    [None] when the body is not JSON. *)
Record response : Type := mkResponse {
  status_code : Z;
  body : option Py.value
}.

(** [response.json()]. *)
Definition json (r : response) : Py.result Py.value :=
  match body r with
  | Some v => Py.Ok v
  | None => Py.Raise Py.JSONDecodeError
  end.

End Http.

(* ================================================================== *)
(** ** The class [Device] *)

Module Device.

Import Py Http.

(** The module constant [DEFAULT_API_VERSION]. *)
Definition DEFAULT_API_VERSION : Z := 1.

(** The attributes [__init__] sets on [self]. *)
Record t : Type := mkDevice {
  address : str;
  device_type : str;
  device_number : Z;
  api_version : Z;
  base_url : str
}.

(** The state a method runs in: the object [self]; the server, which
    answers a request knowing the requests sent before it (or makes
    [requests] raise); and the calls made to [requests.get] and
    [requests.put] so far, oldest first. *)
Record world : Type := mkWorld {
  self : t;
  server : list request -> request -> result response;
  sent : list request
}.

(** A method body: it ends with a value or an exception, and leaves a
    state either way. *)
Definition M (A : Type) : Type := world -> result A * world.

Definition ret {A} (a : A) : M A := fun w => (Ok a, w).

Definition bind {A B} (c : M A) (k : A -> M B) : M B :=
  fun w =>
    match c w with
    | (Ok a, w') => k a w'
    | (Raise e, w') => (Raise e, w')
    end.

(** A pure computation that may raise. *)
Definition lift {A} (r : result A) : M A := fun w => (r, w).

Definition raise {A} (e : exn) : M A := fun w => (Raise e, w).

(** Reading an attribute of [self]. *)
Definition getattr {A} (field : t -> A) : M A := fun w => (Ok (field (self w)), w).

Notation "x <- c ;; k" := (bind c (fun x => k))
  (at level 61, c at next level, right associativity).

(** [requests.get(url)] and [requests.put(url, data=data)]: the call is
    logged with its arguments and the library's answer comes back. *)
Definition send (rq : request) : M response :=
  fun w =>
    (server w (sent w) rq,
     {| self := self w; server := server w; sent := sent w ++ [rq] |}).

Definition requests_get (url : str) : M response :=
  send {| method := GET; url := url; data := None |}.

Definition requests_put (url : str) (data : value) : M response :=
  send {| method := PUT; url := url; data := Some data |}.

Section Methods.

Variable str_of : value -> str.

(** [Device.__init__].  Its two ints are the caller's, of any size, and
    [%d] refuses one beyond [int_max_str_digits] with a [ValueError]. *)
Definition __init__ (address device_type : str) (device_number : Z)
    (protocall : str) (api_version : Z) : result t :=
  if convertible api_version && convertible device_number then
    match
      format str_of (lit "%s://%s/api/v%d/%s/%d")
        [VStr protocall; VStr address; VInt api_version;
         VStr device_type; VInt device_number]
    with
    | Ok url =>
        Ok {| address := address;
              device_type := device_type;
              device_number := device_number;
              api_version := api_version;
              base_url := url |}
    | Raise e => Raise e
    end
  else Raise ValueError.

(** [Device.__check_error]. *)
Definition __check_error (response : response) : M unit :=
  body <- lift (json response) ;;
  number <- lift (getitem body (lit "ErrorNumber")) ;;
  if ne_zero number then
    body1 <- lift (json response) ;;
    number1 <- lift (getitem body1 (lit "ErrorNumber")) ;;
    body2 <- lift (json response) ;;
    message <- lift (getitem body2 (lit "ErrorMessage")) ;;
    text <- lift (format str_of (lit "Error %d: %s") [number1; message]) ;;
    raise (Exception (VStr text))
  else if (status_code response =? 400) || (status_code response =? 500) then
    body1 <- lift (json response) ;;
    v <- lift (getitem body1 (lit "Value")) ;;
    raise (Exception v)
  else ret tt.

(** [Device._get]. *)
Definition _get (attribute : str) : M value :=
  base <- getattr base_url ;;
  url <- lift (format str_of (lit "%s/%s") [VStr base; VStr attribute]) ;;
  response <- requests_get url ;;
  _ <- __check_error response ;;
  body <- lift (json response) ;;
  lift (getitem body (lit "Value")).

(** [Device._put]. *)
Definition _put (attribute : str) (data : value) : M value :=
  base <- getattr base_url ;;
  url <- lift (format str_of (lit "%s/%s") [VStr base; VStr attribute]) ;;
  response <- requests_put url data ;;
  _ <- __check_error response ;;
  lift (json response).

(** [Device.action]: [args] is the tuple of the extra positional
    arguments. *)
Definition action (action : value) (args : list value) : M value :=
  r <- _put (lit "action")
         (VDict [(lit "Action", action); (lit "Parameters", VTuple args)]) ;;
  lift (getitem r (lit "Value")).

Definition commandblind (command raw : value) : M value :=
  r <- _put (lit "commandblind")
         (VDict [(lit "Command", command); (lit "Raw", raw)]) ;;
  lift (getitem r (lit "Value")).

Definition commandbool (command raw : value) : M value :=
  r <- _put (lit "commandbool")
         (VDict [(lit "Command", command); (lit "Raw", raw)]) ;;
  lift (getitem r (lit "Value")).

Definition commandstring (command raw : value) : M value :=
  r <- _put (lit "commandstring")
         (VDict [(lit "Command", command); (lit "Raw", raw)]) ;;
  lift (getitem r (lit "Value")).

(** [Device.connected]; the default of [connected] is [None], and the
    branch that sends the PUT falls off the end of the method. *)
Definition connected (connected : value) : M value :=
  if eq_None connected then _get (lit "connected")
  else
    _ <- _put (lit "connected") (VDict [(lit "Connected", connected)]) ;;
    ret VNone.

Definition description : M value := _get (lit "name").

Definition driverinfo : M value :=
  v <- _get (lit "driverinfo") ;;
  pieces <- lift (split_of v 44%N) ;;
  ret (VList (map (fun i => VStr (strip i)) pieces)).

Definition driverversion : M value := _get (lit "driverversion").

Definition interfaceversion : M value := _get (lit "interfaceversion").

Definition name : M value := _get (lit "name").

Definition supportedactions : M value := _get (lit "supportedactions").

(** The calls a user of the class can make, and their dispatch. *)
Inductive call : Type :=
| Action (action : value) (args : list value)
| CommandBlind (command raw : value)
| CommandBool (command raw : value)
| CommandString (command raw : value)
| Connected (connected : value)
| Description
| DriverInfo
| DriverVersion
| InterfaceVersion
| Name
| SupportedActions
| Get (attribute : str)
| Put (attribute : str) (data : value).

Definition exec (c : call) : M value :=
  match c with
  | Action a args => action a args
  | CommandBlind c r => commandblind c r
  | CommandBool c r => commandbool c r
  | CommandString c r => commandstring c r
  | Connected s => connected s
  | Description => description
  | DriverInfo => driverinfo
  | DriverVersion => driverversion
  | InterfaceVersion => interfaceversion
  | Name => name
  | SupportedActions => supportedactions
  | Get a => _get a
  | Put a d => _put a d
  end.

(** *** The operations as the specification tabulates them *)

(** [{base_url}/{attribute}]. *)
Definition endpoint (d : t) (attribute : str) : str :=
  base_url d ++ lit "/" ++ attribute.

(** A GET of [attribute], and a PUT to [attribute] with the form data
    [dat]. *)
Definition get_request (d : t) (attribute : str) : request :=
  mkRequest GET (endpoint d attribute) None.

Definition put_request (d : t) (attribute : str) (dat : value) : request :=
  mkRequest PUT (endpoint d attribute) (Some dat).

(** The request each operation is specified to issue on a client [d]. *)
Definition request_of (d : t) (c : call) : request :=
  match c with
  | Action a args =>
      put_request d (lit "action")
        (VDict [(lit "Action", a); (lit "Parameters", VTuple args)])
  | CommandBlind cmd raw =>
      put_request d (lit "commandblind")
        (VDict [(lit "Command", cmd); (lit "Raw", raw)])
  | CommandBool cmd raw =>
      put_request d (lit "commandbool")
        (VDict [(lit "Command", cmd); (lit "Raw", raw)])
  | CommandString cmd raw =>
      put_request d (lit "commandstring")
        (VDict [(lit "Command", cmd); (lit "Raw", raw)])
  | Connected state =>
      match state with
      | VNone => get_request d (lit "connected")
      | _ => put_request d (lit "connected") (VDict [(lit "Connected", state)])
      end
  | Description => get_request d (lit "name")
  | DriverInfo => get_request d (lit "driverinfo")
  | DriverVersion => get_request d (lit "driverversion")
  | InterfaceVersion => get_request d (lit "interfaceversion")
  | Name => get_request d (lit "name")
  | SupportedActions => get_request d (lit "supportedactions")
  | Get a => get_request d a
  | Put a dat => put_request d a dat
  end.

(** The state after one request [rq]: only the log has grown. *)
Definition after (w : world) (rq : request) : world :=
  {| self := self w; server := server w; sent := sent w ++ [rq] |}.

(** The server's answer to [rq] in state [w] is the response [r]. *)
Definition answers (w : world) (rq : request) (r : response) : Prop :=
  server w (sent w) rq = Ok r.

(** The body of [r] decodes to an envelope, a JSON object with the
    fields [items]. *)
Definition envelope (r : response) (items : list (str * value)) : Prop :=
  body r = Some (VDict items).

(** The check lets [r] through: an envelope [items] whose [ErrorNumber]
    equals [0], under a status other than 400 and 500. *)
Definition accepted (r : response) (items : list (str * value)) : Prop :=
  envelope r items /\
  (exists number,
     lookup (lit "ErrorNumber") items = Some number /\
     ne_zero number = false) /\
  status_code r <> 400 /\
  status_code r <> 500.

(** The operations that return what [_get] returns. *)
Definition returns_get (c : call) : bool :=
  match c with
  | Connected VNone | Description | DriverVersion | InterfaceVersion
  | Name | SupportedActions | Get _ => true
  | _ => false
  end.

(** The same body under status 200: what the call would have seen had
    the server answered with success. *)
Definition as_success (w : world) (r : response) : world :=
  {| self := self w;
     server := fun _ _ => Ok (mkResponse 200 (body r));
     sent := sent w |}.

(** A sequence of calls on one client; an exception ends a call, not the
    sequence. *)
Fixpoint run (calls : list call) (w : world) : world :=
  match calls with
  | [] => w
  | c :: rest => run rest (snd (exec c w))
  end.

(** The calls that subscript the decoded body with ["Value"] once the
    check has passed: all but [_put] itself and the writing [connected],
    which drop or return the body whole. *)
Definition reads_value (c : call) : bool :=
  match c with
  | Put _ _ => false
  | Connected VNone => true
  | Connected _ => false
  | _ => true
  end.

(** The three [command...] methods with the attribute each one names. *)
Definition command_methods (command raw : value) : list (call * str) :=
  [(CommandBlind command raw, lit "commandblind");
   (CommandBool command raw, lit "commandbool");
   (CommandString command raw, lit "commandstring")].

End Methods.

(** *** The URL template of the specification *)

(** Filling a template whose placeholders are [{name}]: text outside braces is copied, a placeholder is replaced by
    the field of that name.  [hole] is the part of a placeholder's name
    read so far, last character first. *)
Fixpoint fill (template : str) (hole : option str)
    (fields : list (str * str)) : option str :=
  match template with
  | [] =>
      match hole with
      | None => Some []
      | Some _ => None
      end
  | c :: rest =>
      match hole with
      | None =>
          if (c =? 123)%N then fill rest (Some []) fields
          else option_map (cons c) (fill rest None fields)
      | Some name =>
          if (c =? 125)%N then
            match
              find (fun kv => str_eqb (List.rev name) (fst kv)) fields
            with
            | Some kv => option_map (app (snd kv)) (fill rest None fields)
            | None => None
            end
          else fill rest (Some (c :: name)) fields
      end
  end.

Definition url_template : str :=
  lit "{protocol}://{address}/api/v{api_version}/{device_type}/{device_number}".

(** *** What [strip] is specified to return *)

(** [t] is [s] without its leading and trailing whitespace. *)
Definition trimmed (s t : str) : Prop :=
  exists before behind,
    s = before ++ t ++ behind /\
    forallb isspace before = true /\
    forallb isspace behind = true /\
    (forall c, hd_error t = Some c -> isspace c = false) /\
    (forall c, hd_error (List.rev t) = Some c -> isspace c = false).

(* ================================================================== *)
(** ** Properties *)

(** *** [split] and [strip] *)

Lemma split_nonempty (s : str) (sep : N) : split s sep <> [].
Proof.
  destruct s as [|c s]; cbn; [discriminate|].
  destruct (c =? sep)%N; [discriminate|].
  destruct (split s sep); discriminate.
Qed.

Lemma join_split (s : str) (sep : N) : join sep (split s sep) = s.
Proof.
  induction s as [|c s IH]; cbn; [reflexivity|].
  destruct (c =? sep)%N eqn:E.
  - apply N.eqb_eq in E. subst c.
    destruct (split s sep) as [|p ps] eqn:S.
    + now apply split_nonempty in S.
    + change (sep :: join sep (p :: ps) = sep :: s). now rewrite IH.
  - destruct (split s sep) as [|p ps] eqn:S.
    + now apply split_nonempty in S.
    + rewrite <- IH. now destruct ps.
Qed.

Lemma split_no_sep (s : str) (sep : N) :
  Forall (fun p => ~ In sep p) (split s sep).
Proof.
  induction s as [|c s IH]; cbn.
  - constructor; [intros []|constructor].
  - destruct (c =? sep)%N eqn:E.
    + constructor; [intros []|exact IH].
    + apply N.eqb_neq in E.
      destruct (split s sep) as [|p ps].
      * constructor; [|constructor]. intros [H|[]]. now apply E.
      * inversion IH as [|? ? Hp Hps]; subst.
        constructor; [|exact Hps]. intros [H|H]; [now apply E|now apply Hp].
Qed.

Lemma lstrip_spec (s : str) :
  exists before,
    s = before ++ lstrip s /\ forallb isspace before = true /\
    (forall c, hd_error (lstrip s) = Some c -> isspace c = false).
Proof.
  induction s as [|c s (before & Hs & Hb & Hh)]; cbn.
  - exists []. repeat split. discriminate.
  - destruct (isspace c) eqn:E.
    + exists (c :: before). cbn. rewrite E, Hb. repeat split; [|exact Hh].
      now rewrite Hs at 1.
    + exists []. repeat split. cbn. now intros ? [= <-].
Qed.

Lemma strip_trimmed (s : str) : trimmed s (strip s).
Proof.
  unfold trimmed, strip, rstrip.
  destruct (lstrip_spec s) as (before & Hs & Hb & Hh).
  destruct (lstrip_spec (List.rev (lstrip s))) as (tail & Ht & Htb & Hth).
  exists before, (List.rev tail). repeat split.
  - rewrite <- rev_app_distr, <- Ht, rev_involutive. exact Hs.
  - exact Hb.
  - rewrite forallb_forall in *. intros c Hc. apply Htb.
    now apply in_rev.
  - intros c Hc. apply Hh.
    apply (f_equal (@List.rev N)) in Ht.
    rewrite rev_involutive, rev_app_distr in Ht. rewrite Ht.
    destruct (List.rev (lstrip (List.rev (lstrip s)))); [discriminate|exact Hc].
  - intros c Hc. apply Hth. now rewrite rev_involutive in Hc.
Qed.

Lemma lstrip_spaces (before s : str) :
  forallb isspace before = true -> lstrip (before ++ s) = lstrip s.
Proof.
  induction before as [|c before IH]; cbn; [reflexivity|].
  intros H. apply andb_prop in H as [-> H]. now apply IH.
Qed.

Lemma lstrip_keeps (s : str) :
  (forall c, hd_error s = Some c -> isspace c = false) -> lstrip s = s.
Proof.
  destruct s as [|c s]; cbn; [reflexivity|].
  intros H. now rewrite (H c eq_refl).
Qed.

(** [trimmed] determines its second argument: it is [strip]. *)
Lemma trimmed_unique (s t : str) : trimmed s t -> t = strip s.
Proof.
  intros (before & behind & -> & Hb & He & Hhd & Hlast).
  unfold strip, rstrip. rewrite lstrip_spaces by exact Hb.
  destruct t as [|c t].
  - cbn [app]. rewrite <- (app_nil_r behind) at 1.
    rewrite lstrip_spaces by exact He. reflexivity.
  - rewrite (lstrip_keeps ((c :: t) ++ behind)) by (cbn; exact Hhd).
    rewrite rev_app_distr, lstrip_spaces.
    + rewrite lstrip_keeps by exact Hlast. now rewrite rev_involutive.
    + rewrite forallb_forall in *. intros x Hx. apply He. now apply in_rev.
Qed.

Section Properties.

Variable str_of : value -> str.

Arguments decimal : simpl never.

(** *** The two format strings of the request path *)

Lemma format_url (base attribute : str) :
  format str_of (lit "%s/%s") [VStr base; VStr attribute]
  = Ok (base ++ lit "/" ++ attribute).
Proof.
  cbn. now rewrite app_nil_r.
Qed.

Lemma format_error (n : Z) (m : str) :
  format str_of (lit "Error %d: %s") [VInt n; VStr m]
  = Ok (lit "Error " ++ decimal n ++ lit ": " ++ m).
Proof.
  cbn. now rewrite app_nil_r.
Qed.

(** *** The error check, case by case *)

Ltac open_check :=
  unfold __check_error, bind, lift, raise, ret, json, getitem.

Lemma check_frame (r : response) (w : world) :
  snd (__check_error str_of r w) = w.
Proof.
  open_check.
  destruct (body r) as [[]|]; try reflexivity.
  destruct (lookup (lit "ErrorNumber") items) as [number|]; try reflexivity.
  destruct (ne_zero number).
  - destruct (lookup (lit "ErrorMessage") items); try reflexivity.
    destruct (format str_of _ _); reflexivity.
  - destruct (_ || _); try reflexivity.
    destruct (lookup (lit "Value") items); reflexivity.
Qed.

Lemma check_protocol (r : response) (w : world) items (n : Z) (m : str) :
  envelope r items ->
  lookup (lit "ErrorNumber") items = Some (VInt n) ->
  n <> 0 ->
  lookup (lit "ErrorMessage") items = Some (VStr m) ->
  __check_error str_of r w
  = (Raise (Exception (VStr (lit "Error " ++ decimal n ++ lit ": " ++ m))), w).
Proof.
  intros Hbody Hn Hnz Hm. open_check.
  apply Z.eqb_neq in Hnz. unfold envelope in Hbody.
  rewrite !Hbody; cbv beta iota. rewrite !Hn; cbv beta iota.
  unfold ne_zero. rewrite Hnz; cbv beta iota delta [negb].
  rewrite Hm; cbv beta iota. now rewrite format_error.
Qed.

Lemma check_transport (r : response) (w : world) items (number v : value) :
  envelope r items ->
  lookup (lit "ErrorNumber") items = Some number ->
  ne_zero number = false ->
  status_code r = 400 \/ status_code r = 500 ->
  lookup (lit "Value") items = Some v ->
  __check_error str_of r w = (Raise (Exception v), w).
Proof.
  intros Hbody Hn Hz Hs Hv. open_check. unfold envelope in Hbody.
  rewrite !Hbody; cbv beta iota. rewrite Hn; cbv beta iota.
  rewrite Hz, Hv.
  destruct Hs as [-> | ->]; reflexivity.
Qed.

Lemma check_pass (r : response) (w : world) items (number : value) :
  envelope r items ->
  lookup (lit "ErrorNumber") items = Some number ->
  ne_zero number = false ->
  status_code r <> 400 ->
  status_code r <> 500 ->
  __check_error str_of r w = (Ok tt, w).
Proof.
  intros Hbody Hn Hz H4 H5. open_check. unfold envelope in Hbody.
  rewrite !Hbody; cbv beta iota. rewrite Hn; cbv beta iota. rewrite Hz.
  apply Z.eqb_neq in H4, H5. now rewrite H4, H5.
Qed.

(** Without a readable [ErrorNumber] the check raises before it looks at
    the status code. *)
Lemma check_no_number (r : response) (w : world) :
  (forall items, envelope r items ->
                 lookup (lit "ErrorNumber") items = None) ->
  exists e, __check_error str_of r w = (Raise e, w).
Proof.
  intros Hno. open_check.
  destruct (body r) as [[]|] eqn:Hbody; try (eexists; reflexivity).
  rewrite (Hno items Hbody). eexists; reflexivity.
Qed.

(** *** The two primitives: one request, the check, the result *)

Lemma check_split (r : response) (w : world) :
  __check_error str_of r w = (fst (__check_error str_of r w), w).
Proof.
  rewrite <- (check_frame r w) at 3. apply surjective_pairing.
Qed.

Lemma check_any_world (r : response) (w w' : world) :
  fst (__check_error str_of r w) = fst (__check_error str_of r w').
Proof.
  open_check.
  destruct (body r) as [[]|]; try reflexivity.
  destruct (lookup (lit "ErrorNumber") items) as [number|]; try reflexivity.
  destruct (ne_zero number).
  - destruct (lookup (lit "ErrorMessage") items); try reflexivity.
    destruct (format str_of _ _); reflexivity.
  - destruct (_ || _); try reflexivity.
    destruct (lookup (lit "Value") items); reflexivity.
Qed.

Lemma _get_eq (attribute : str) (w : world) :
  let rq := mkRequest GET (endpoint (self w) attribute) None in
  _get str_of attribute w
  = (match server w (sent w) rq with
     | Ok r =>
         match fst (__check_error str_of r (after w rq)) with
         | Ok _ =>
             match json r with
             | Ok b => getitem b (lit "Value")
             | Raise e => Raise e
             end
         | Raise e => Raise e
         end
     | Raise e => Raise e
     end, after w rq).
Proof.
  unfold _get, requests_get, send, getattr, endpoint, after.
  unfold bind at 1 2 3; unfold lift at 1; cbv beta iota.
  rewrite format_url.
  destruct (server w (sent w) _) as [r|e]; [|reflexivity].
  unfold bind at 1. rewrite check_split.
  destruct (fst _); [|reflexivity].
  unfold bind, lift. now destruct (json r).
Qed.

Lemma _put_eq (attribute : str) (dat : value) (w : world) :
  let rq := mkRequest PUT (endpoint (self w) attribute) (Some dat) in
  _put str_of attribute dat w
  = (match server w (sent w) rq with
     | Ok r =>
         match fst (__check_error str_of r (after w rq)) with
         | Ok _ => json r
         | Raise e => Raise e
         end
     | Raise e => Raise e
     end, after w rq).
Proof.
  unfold _put, requests_put, send, getattr, endpoint, after.
  unfold bind at 1 2 3; unfold lift at 1; cbv beta iota.
  rewrite format_url.
  destruct (server w (sent w) _) as [r|e]; [|reflexivity].
  unfold bind at 1. rewrite check_split.
  destruct (fst _); reflexivity.
Qed.

(** Unfolds a call down to its primitive and replaces the primitive by
    its equation. *)
Ltac open_call :=
  unfold exec, action, commandblind, commandbool, commandstring, connected,
    description, driverinfo, driverversion, interfaceversion, name,
    supportedactions, request_of, get_request, put_request, answers in *;
  cbv beta iota delta [eq_None];
  unfold bind, lift, ret;
  rewrite ?_get_eq, ?_put_eq;
  cbv beta iota zeta.

(** Splits on every scrutinee left in the goal. *)
Ltac split_cases :=
  repeat match goal with
         | |- context [match ?x with _ => _ end] => destruct x
         end.

Lemma sends_one_request (c : call) (w : world) :
  snd (exec str_of c w) = after w (request_of (self w) c).
Proof.
  destruct c as [a args|cmd raw|cmd raw|cmd raw|state| | | | | | |attr|attr dat];
    try destruct state; open_call; split_cases; reflexivity.
Qed.

Lemma check_accepted (r : response) (w : world) items :
  accepted r items -> fst (__check_error str_of r w) = Ok tt.
Proof.
  intros (Hbody & (number & Hn & Hz) & H4 & H5).
  now rewrite (check_pass w Hbody Hn Hz H4 H5).
Qed.

(** An exception of the check is the exception of the call. *)
Lemma check_raises_call (c : call) (w : world) (r : response) (e : exn) :
  answers w (request_of (self w) c) r ->
  (forall w', fst (__check_error str_of r w') = Raise e) ->
  exec str_of c w = (Raise e, after w (request_of (self w) c)).
Proof.
  intros Hr He.
  destruct c as [a args|cmd raw|cmd raw|cmd raw|state| | | | | | |attr|attr dat];
    try destruct state; open_call; rewrite Hr, He; reflexivity.
Qed.

(** What the operations built on [_get] alone return once the check has
    passed. *)
Lemma get_call_returns (c : call) (w : world) (r : response) items v :
  returns_get c = true ->
  answers w (request_of (self w) c) r ->
  accepted r items ->
  lookup (lit "Value") items = Some v ->
  exec str_of c w = (Ok v, after w (request_of (self w) c)).
Proof.
  intros Hc Hr Hacc Hv. pose proof Hacc as (Hbody & _).
  unfold envelope in Hbody.
  destruct c as [a args|cmd raw|cmd raw|cmd raw|state| | | | | | |attr|attr dat];
    try destruct state; try discriminate Hc; open_call;
    rewrite Hr, (check_accepted _ Hacc); unfold json, getitem;
    rewrite Hbody, Hv; reflexivity.
Qed.

Lemma put_returns (attr : str) (dat : value) (w : world) (r : response) items :
  answers w (request_of (self w) (Put attr dat)) r ->
  accepted r items ->
  exec str_of (Put attr dat) w
  = (Ok (VDict items), after w (request_of (self w) (Put attr dat))).
Proof.
  intros Hr Hacc. pose proof Hacc as (Hbody & _). unfold envelope in Hbody.
  open_call. rewrite Hr, (check_accepted _ Hacc). unfold json.
  now rewrite Hbody.
Qed.

Lemma accepted_as_success (r : response) items :
  accepted r items -> accepted (mkResponse 200 (body r)) items.
Proof.
  intros (Hbody & Hn & _ & _). repeat split; [exact Hbody|exact Hn| |];
    cbn; discriminate.
Qed.

Lemma same_as_success (c : call) (w : world) (r : response) items :
  answers w (request_of (self w) c) r ->
  accepted r items ->
  fst (exec str_of c w) = fst (exec str_of c (as_success w r)).
Proof.
  intros Hr Hacc. pose proof (accepted_as_success Hacc) as Hacc'.
  destruct c as [a args|cmd raw|cmd raw|cmd raw|state| | | | | | |attr|attr dat];
    try destruct state; open_call; rewrite Hr; cbn [as_success server fst];
    rewrite (check_accepted _ Hacc), (check_accepted _ Hacc');
    unfold json; cbn [body]; split_cases; reflexivity.
Qed.

(** *** The claims *)

(** C1: for every protocol, address, API version, device type and device
    number, the two integers of at most [int_max_str_digits] digits (the
    ones [%d] converts), the constructor succeeds and stores as [base_url]
    exactly the template
    [{protocol}://{address}/api/v{api_version}/{device_type}/{device_number}]
    filled with these five values (the two integers in decimal); the other
    four attributes hold the arguments. *)
Theorem base_url_matches_template
    (protocol addr : str) (version : Z) (kind : str) (number : Z) :
  convertible version = true ->
  convertible number = true ->
  exists d,
    __init__ str_of addr kind number protocol version = Ok d /\
    fill url_template None
      [(lit "protocol", protocol); (lit "address", addr);
       (lit "api_version", decimal version); (lit "device_type", kind);
       (lit "device_number", decimal number)]
    = Some (base_url d) /\
    base_url d
    = protocol ++ lit "://" ++ addr ++ lit "/api/v" ++ decimal version
      ++ lit "/" ++ kind ++ lit "/" ++ decimal number /\
    address d = addr /\ device_type d = kind /\
    device_number d = number /\ api_version d = version.
Proof.
  intros Hversion Hnumber.
  eexists. split; [unfold __init__; rewrite Hversion, Hnumber; cbn; reflexivity|].
  cbn. rewrite app_nil_r. repeat split.
Qed.

(** C2: when the envelope of the response has an [ErrorNumber] [n] other
    than [0] and an [ErrorMessage] [m], every call (the eleven wrapping
    methods and the two primitives) raises the exception whose text is
    [Error n: m], whatever the status code. *)
Theorem protocol_error_is_raised
    (c : call) (w : world) (r : response) items (n : Z) (m : str) :
  answers w (request_of (self w) c) r ->
  envelope r items ->
  lookup (lit "ErrorNumber") items = Some (VInt n) ->
  n <> 0 ->
  lookup (lit "ErrorMessage") items = Some (VStr m) ->
  exec str_of c w
  = (Raise (Exception (VStr (lit "Error " ++ decimal n ++ lit ": " ++ m))),
     after w (request_of (self w) c)).
Proof.
  intros Hr Hbody Hn Hnz Hm. apply check_raises_call with (r := r); [exact Hr|].
  intros w'. now rewrite (check_protocol w' Hbody Hn Hnz Hm).
Qed.

(** C3: when the status is 400 or 500 and the envelope's [ErrorNumber]
    equals [0], every call raises the exception whose argument is the
    envelope's [Value]. *)
Theorem transport_error_carries_value
    (c : call) (w : world) (r : response) items (number v : value) :
  answers w (request_of (self w) c) r ->
  envelope r items ->
  lookup (lit "ErrorNumber") items = Some number ->
  ne_zero number = false ->
  status_code r = 400 \/ status_code r = 500 ->
  lookup (lit "Value") items = Some v ->
  exec str_of c w = (Raise (Exception v), after w (request_of (self w) c)).
Proof.
  intros Hr Hbody Hn Hz Hs Hv. apply check_raises_call with (r := r); [exact Hr|].
  intros w'. now rewrite (check_transport w' Hbody Hn Hz Hs Hv).
Qed.

(** C4: when the envelope's [ErrorNumber] equals [0] and the status is
    neither 400 nor 500 (404 and 503 included), the check raises nothing;
    an operation built on GET alone returns the envelope's [Value], the
    PUT primitive returns the whole decoded body, and every call ends as
    it would under status 200. *)
Theorem other_status_is_not_an_error
    (c : call) (w : world) (r : response) items (number : value) :
  answers w (request_of (self w) c) r ->
  envelope r items ->
  lookup (lit "ErrorNumber") items = Some number ->
  ne_zero number = false ->
  status_code r <> 400 ->
  status_code r <> 500 ->
  __check_error str_of r w = (Ok tt, w) /\
  (returns_get c = true ->
   forall v, lookup (lit "Value") items = Some v ->
             fst (exec str_of c w) = Ok v) /\
  (forall attr dat, c = Put attr dat ->
                    fst (exec str_of c w) = Ok (VDict items)) /\
  fst (exec str_of c w) = fst (exec str_of c (as_success w r)).
Proof.
  intros Hr Hbody Hn Hz H4 H5.
  assert (Hacc : accepted r items) by (repeat split; eauto).
  split; [exact (check_pass w Hbody Hn Hz H4 H5)|].
  split; [|split].
  - intros Hc v Hv. now rewrite (get_call_returns c Hc Hr Hacc Hv).
  - intros attr dat ->. now rewrite (put_returns Hr Hacc).
  - exact (same_as_success c Hr Hacc).
Qed.

(** C5: [connected()] sends a GET to [connected] and, when the check
    passes, returns the envelope's [Value]; [connected(state)] with a
    [state] other than [None] sends a PUT to [connected] with the data
    [{Connected: state}] and, when the check passes, returns [None]. *)
Theorem connected_reads_or_writes (w : world) (state : value) :
  state <> VNone ->
  snd (exec str_of (Connected VNone) w)
  = after w (get_request (self w) (lit "connected")) /\
  (forall r items v,
     answers w (get_request (self w) (lit "connected")) r ->
     accepted r items ->
     lookup (lit "Value") items = Some v ->
     fst (exec str_of (Connected VNone) w) = Ok v) /\
  snd (exec str_of (Connected state) w)
  = after w (put_request (self w) (lit "connected")
               (VDict [(lit "Connected", state)])) /\
  (forall r items,
     answers w (put_request (self w) (lit "connected")
                  (VDict [(lit "Connected", state)])) r ->
     accepted r items ->
     fst (exec str_of (Connected state) w) = Ok VNone).
Proof.
  intros Hset. split; [|split; [|split]].
  - exact (sends_one_request (Connected VNone) w).
  - intros r items v Hr Hacc Hv.
    now rewrite (get_call_returns (Connected VNone) eq_refl Hr Hacc Hv).
  - rewrite sends_one_request. now destruct state.
  - intros r items Hr Hacc. pose proof Hacc as (Hbody & _).
    unfold envelope in Hbody.
    destruct state; try (now elim Hset); open_call;
      rewrite Hr, (check_accepted _ Hacc); unfold json;
      rewrite Hbody; reflexivity.
Qed.

(** C6: when the server's [Value] for [driverinfo] is a string [s],
    [driverinfo()] returns the list of the pieces of [s] between its
    commas, in their order (at least one piece; joined by commas they
    give [s] back, and none contains a comma), each without its leading
    and trailing whitespace;
    on ["A, B ,C"] the list is [["A", "B", "C"]]. *)
Theorem driverinfo_splits_and_trims
    (w : world) (r : response) items (s : str) :
  answers w (get_request (self w) (lit "driverinfo")) r ->
  accepted r items ->
  lookup (lit "Value") items = Some (VStr s) ->
  exists pieces,
    pieces <> [] /\
    join 44%N pieces = s /\
    Forall (fun p => ~ In 44%N p) pieces /\
    fst (exec str_of DriverInfo w) = Ok (VList (map VStr (map strip pieces))) /\
    Forall (fun p => trimmed p (strip p)) pieces /\
    (s = lit "A, B ,C" ->
     fst (exec str_of DriverInfo w)
     = Ok (VList [VStr (lit "A"); VStr (lit "B"); VStr (lit "C")])).
Proof.
  intros Hr Hacc Hv. pose proof Hacc as (Hbody & _). unfold envelope in Hbody.
  assert (E : fst (exec str_of DriverInfo w)
              = Ok (VList (map VStr (map strip (split s 44%N))))).
  { open_call. rewrite Hr, (check_accepted _ Hacc). unfold json, getitem.
    rewrite Hbody, Hv. cbn. now rewrite map_map. }
  exists (split s 44%N). split; [apply split_nonempty|]. repeat split.
  - apply join_split.
  - apply split_no_sep.
  - exact E.
  - apply Forall_forall. intros p _. apply strip_trimmed.
  - intros ->. exact E.
Qed.

(** C7: [action(name, *params)] sends a PUT to [action] with the data
    [{Action: name, Parameters: params}] and, when the check passes,
    returns the envelope's [Value]; [action("park")] sends
    [{Action: "park", Parameters: ()}], the empty sequence of
    parameters. *)
Theorem action_puts_name_and_parameters
    (w : world) (name : value) (params : list value) :
  snd (exec str_of (Action name params) w)
  = after w (put_request (self w) (lit "action")
               (VDict [(lit "Action", name);
                       (lit "Parameters", VTuple params)])) /\
  (forall r items v,
     answers w (put_request (self w) (lit "action")
                  (VDict [(lit "Action", name);
                          (lit "Parameters", VTuple params)])) r ->
     accepted r items ->
     lookup (lit "Value") items = Some v ->
     fst (exec str_of (Action name params) w) = Ok v) /\
  sent (snd (exec str_of (Action (VStr (lit "park")) []) w))
  = sent w ++
    [mkRequest PUT (base_url (self w) ++ lit "/action")
       (Some (VDict [(lit "Action", VStr (lit "park"));
                     (lit "Parameters", VTuple [])]))].
Proof.
  split; [|split].
  - exact (sends_one_request (Action name params) w).
  - intros r items v Hr Hacc Hv. pose proof Hacc as (Hbody & _).
    unfold envelope in Hbody. open_call.
    rewrite Hr, (check_accepted _ Hacc). unfold json, getitem.
    now rewrite Hbody, Hv.
  - now rewrite sends_one_request.
Qed.

(** C8: [description()] and [name()] both send a GET to [name], and
    answered by the same response they end alike: with the same value,
    the envelope's [Value] when the check passes, or with the same
    exception. *)
Theorem description_same_as_name (w1 w2 : world) :
  self w1 = self w2 ->
  server w1 (sent w1) (get_request (self w1) (lit "name"))
  = server w2 (sent w2) (get_request (self w2) (lit "name")) ->
  snd (exec str_of Description w1)
  = after w1 (get_request (self w1) (lit "name")) /\
  snd (exec str_of Name w2)
  = after w2 (get_request (self w2) (lit "name")) /\
  fst (exec str_of Description w1) = fst (exec str_of Name w2) /\
  exec str_of Description w1 = exec str_of Name w1 /\
  (forall r items v,
     answers w1 (get_request (self w1) (lit "name")) r ->
     accepted r items ->
     lookup (lit "Value") items = Some v ->
     fst (exec str_of Description w1) = Ok v /\
     fst (exec str_of Name w2) = Ok v).
Proof.
  intros Hself Hsame.
  assert (E : fst (exec str_of Description w1) = fst (exec str_of Name w2)).
  { open_call. cbn [fst]. rewrite Hsame, Hself.
    destruct (server w2 _ _) as [r|e]; [|reflexivity].
    match goal with
    | |- context [__check_error str_of r (after w1 ?rq)] =>
        now rewrite (check_any_world r (after w1 rq) (after w2 rq))
    end. }
  split; [exact (sends_one_request Description w1)|].
  split; [exact (sends_one_request Name w2)|].
  split; [exact E|]. split; [reflexivity|].
  intros r items v Hr Hacc Hv. rewrite <- E.
  now rewrite (get_call_returns Description eq_refl Hr Hacc Hv).
Qed.

(** C9: no call writes an attribute of the client: after any sequence of
    calls, whatever the server answers, [self] (so [address],
    [device_type], [device_number], [api_version] and [base_url]) is what
    the constructor left. *)
Theorem descriptor_never_written (calls : list call) (w : world) :
  self (run str_of calls w) = self w.
Proof.
  revert w. induction calls as [|c rest IH]; intros w; cbn [run].
  - reflexivity.
  - rewrite IH. now rewrite sends_one_request.
Qed.

(** C10: when the decoded body has no [ErrorNumber] field, every call
    raises, under every status code, 200 included, and none returns a
    value: [KeyError] for that key when the body is an object, [TypeError]
    when it is any other JSON value. *)
Theorem missing_error_number_fails
    (c : call) (w : world) (r : response) (decoded : value) :
  answers w (request_of (self w) c) r ->
  body r = Some decoded ->
  (forall items, decoded = VDict items ->
                 lookup (lit "ErrorNumber") items = None) ->
  exec str_of c w
  = (Raise match decoded with
           | VDict _ => KeyError (lit "ErrorNumber")
           | _ => TypeError
           end,
     after w (request_of (self w) c)).
Proof.
  intros Hr Hbody Hno. apply check_raises_call with (r := r); [exact Hr|].
  intros w'. open_check. rewrite Hbody.
  destruct decoded; try reflexivity.
  now rewrite (Hno items eq_refl).
Qed.

(** *** Further properties of the class *)

Lemma format_error_any (number m : value) :
  format str_of (lit "Error %d: %s") [number; m]
  = match conv_d number with
    | Ok digits => Ok (lit "Error " ++ digits ++ lit ": " ++ conv_s str_of m)
    | Raise e => Raise e
    end.
Proof.
  cbn -[conv_d conv_s]. destruct (conv_d number); [|reflexivity].
  now rewrite app_nil_r.
Qed.

(** An exception of [requests] is the exception of the call. *)
Lemma request_raises_call (c : call) (w : world) (e : exn) :
  server w (sent w) (request_of (self w) c) = Raise e ->
  exec str_of c w = (Raise e, after w (request_of (self w) c)).
Proof.
  intros Hr.
  destruct c as [a args|cmd raw|cmd raw|cmd raw|state| | | | | | |attr|attr dat];
    try destruct state; open_call; rewrite Hr; reflexivity.
Qed.

Lemma check_raises_call_at (c : call) (w : world) (r : response) (e : exn) :
  answers w (request_of (self w) c) r ->
  fst (__check_error str_of r w) = Raise e ->
  exec str_of c w = (Raise e, after w (request_of (self w) c)).
Proof.
  intros Hr He. apply check_raises_call with (r := r); [exact Hr|].
  intros w'. now rewrite (check_any_world r w' w).
Qed.

(** The check passes on accepted responses only. *)
Lemma check_ok_accepted (r : response) (w : world) (u : unit) :
  fst (__check_error str_of r w) = Ok u -> exists items, accepted r items.
Proof.
  open_check.
  destruct (body r) as [[]|] eqn:Hbody; try discriminate.
  destruct (lookup (lit "ErrorNumber") items) as [number|] eqn:Hn;
    try discriminate.
  destruct (ne_zero number) eqn:Hz.
  - destruct (lookup (lit "ErrorMessage") items); try discriminate.
    destruct (format str_of _ _); discriminate.
  - destruct (status_code r =? 400) eqn:H4; cbn [orb].
    + destruct (lookup (lit "Value") items); discriminate.
    + destruct (status_code r =? 500) eqn:H5.
      * destruct (lookup (lit "Value") items); discriminate.
      * intros _. exists items. apply Z.eqb_neq in H4, H5.
        repeat split; eauto.
Qed.

(** X1: [commandblind], [commandbool] and [commandstring] each send one
    PUT to the attribute of their own name with the data
    [{Command: command, Raw: raw}], whatever the server answers, and
    return the envelope's [Value] when the check passes, [commandblind]
    included. *)
Theorem commands_put_command_and_raw
    (w : world) (command raw : value) (c : call) (attribute : str) :
  In (c, attribute) (command_methods command raw) ->
  snd (exec str_of c w)
  = after w (put_request (self w) attribute
               (VDict [(lit "Command", command); (lit "Raw", raw)])) /\
  (forall r items v,
     answers w (put_request (self w) attribute
                  (VDict [(lit "Command", command); (lit "Raw", raw)])) r ->
     accepted r items ->
     lookup (lit "Value") items = Some v ->
     fst (exec str_of c w) = Ok v).
Proof.
  intros Hin. split.
  - rewrite sends_one_request.
    destruct Hin as [[= <- <-]|[[= <- <-]|[[= <- <-]|[]]]]; reflexivity.
  - intros r items v Hr Hacc Hv. pose proof Hacc as (Hbody & _).
    unfold envelope in Hbody.
    destruct Hin as [[= <- <-]|[[= <- <-]|[[= <- <-]|[]]]]; open_call;
      rewrite Hr, (check_accepted _ Hacc); unfold json, getitem;
      rewrite Hbody, Hv; reflexivity.
Qed.

(** X2: a sequence of method calls makes exactly one call to
    [requests.get] or [requests.put] per method call, in the order of the
    method calls and after the calls made before, whether the methods
    return or raise; the arguments are those the unchanged client gives,
    and the server is the same.  (What the library then exchanges with
    the server for one such call is its own business.) *)
Theorem one_request_per_call (calls : list call) (w : world) :
  sent (run str_of calls w) = sent w ++ map (request_of (self w)) calls /\
  server (run str_of calls w) = server w.
Proof.
  revert w. induction calls as [|c rest IH]; intros w; cbn [run map].
  - now rewrite app_nil_r.
  - destruct (IH (snd (exec str_of c w))) as [Hsent Hserver].
    rewrite Hsent, Hserver, sends_one_request. cbn [after sent self server].
    now rewrite <- app_assoc.
Qed.

(** X3: when [requests] raises (no connection, a time-out), every call
    raises the same exception unchanged, after its one request. *)
Theorem transport_exception_propagates (c : call) (w : world) (e : exn) :
  server w (sent w) (request_of (self w) c) = Raise e ->
  exec str_of c w = (Raise e, after w (request_of (self w) c)).
Proof.
  intros Hr.
  destruct c as [a args|cmd raw|cmd raw|cmd raw|state| | | | | | |attr|attr dat];
    try destruct state; open_call; rewrite Hr; reflexivity.
Qed.

(** X4: when the body of the response is not JSON, every call raises the
    decoder's exception, also under status 400 or 500: the status code is
    not read before the body is decoded. *)
Theorem undecodable_body_raises (c : call) (w : world) (r : response) :
  answers w (request_of (self w) c) r ->
  body r = None ->
  exec str_of c w = (Raise JSONDecodeError, after w (request_of (self w) c)).
Proof.
  intros Hr Hbody. apply check_raises_call with (r := r); [exact Hr|].
  intros w'. open_check. now rewrite Hbody.
Qed.

(** X5: when [ErrorNumber] differs from [0], whatever its type and that
    of [ErrorMessage], every call ends as the [%d] conversion of the
    number decides: a number ([True] counts as 1, a float is truncated)
    gives [Exception("Error <digits>: <str(message)>")], anything else the
    conversion's own exception ([TypeError] for a string or [None]); the
    status code plays no part. *)
Theorem nonzero_error_number_formats_or_raises
    (c : call) (w : world) (r : response) items (number m : value) :
  answers w (request_of (self w) c) r ->
  envelope r items ->
  lookup (lit "ErrorNumber") items = Some number ->
  ne_zero number = true ->
  lookup (lit "ErrorMessage") items = Some m ->
  exec str_of c w
  = (Raise match conv_d number with
           | Ok digits =>
               Exception
                 (VStr (lit "Error " ++ digits ++ lit ": " ++ conv_s str_of m))
           | Raise e => e
           end,
     after w (request_of (self w) c)).
Proof.
  intros Hr Hbody Hn Hz Hm. apply check_raises_call with (r := r); [exact Hr|].
  intros w'. unfold envelope in Hbody. open_check.
  rewrite !Hbody; cbv beta iota. rewrite !Hn; cbv beta iota.
  rewrite Hz, Hm; cbv beta iota. rewrite format_error_any.
  destruct (conv_d number); reflexivity.
Qed.

(** X6: when [ErrorNumber] differs from [0] and the envelope has no
    [ErrorMessage], every call raises [KeyError] for [ErrorMessage], also
    when the number itself could not be formatted: the message is looked
    up before the text is built. *)
Theorem missing_error_message_raises
    (c : call) (w : world) (r : response) items (number : value) :
  answers w (request_of (self w) c) r ->
  envelope r items ->
  lookup (lit "ErrorNumber") items = Some number ->
  ne_zero number = true ->
  lookup (lit "ErrorMessage") items = None ->
  exec str_of c w
  = (Raise (KeyError (lit "ErrorMessage")), after w (request_of (self w) c)).
Proof.
  intros Hr Hbody Hn Hz Hm. apply check_raises_call with (r := r); [exact Hr|].
  intros w'. unfold envelope in Hbody. open_check.
  rewrite !Hbody; cbv beta iota. rewrite !Hn; cbv beta iota.
  now rewrite Hz, Hm.
Qed.

(** X7: when [ErrorNumber] equals [0] and the envelope has no [Value],
    a call raises [KeyError] for [Value] if the status is 400 or 500 (the
    check reads it) or if the call itself reads it (every call but [_put]
    and the writing [connected]). *)
Theorem missing_value_raises
    (c : call) (w : world) (r : response) items (number : value) :
  answers w (request_of (self w) c) r ->
  envelope r items ->
  lookup (lit "ErrorNumber") items = Some number ->
  ne_zero number = false ->
  lookup (lit "Value") items = None ->
  status_code r = 400 \/ status_code r = 500 \/ reads_value c = true ->
  exec str_of c w
  = (Raise (KeyError (lit "Value")), after w (request_of (self w) c)).
Proof.
  intros Hr Hbody Hn Hz Hv Hcase.
  destruct (Z.eq_dec (status_code r) 400) as [H4|H4];
    [|destruct (Z.eq_dec (status_code r) 500) as [H5|H5]].
  - apply check_raises_call with (r := r); [exact Hr|].
    intros w'. unfold envelope in Hbody. open_check.
    rewrite !Hbody; cbv beta iota. rewrite Hn; cbv beta iota.
    now rewrite Hz, Hv, H4.
  - apply check_raises_call with (r := r); [exact Hr|].
    intros w'. unfold envelope in Hbody. open_check.
    rewrite !Hbody; cbv beta iota. rewrite Hn; cbv beta iota.
    now rewrite Hz, Hv, H5.
  - destruct Hcase as [Hs|[Hs|Hc]]; [now elim H4|now elim H5|].
    assert (Hacc : accepted r items) by (repeat split; eauto).
    unfold envelope in Hbody.
    destruct c as [a args|cmd raw|cmd raw|cmd raw|state| | | | | | |attr|attr dat];
      try destruct state; try discriminate Hc; open_call;
      rewrite Hr, (check_accepted _ Hacc); unfold json, getitem;
      rewrite Hbody, Hv; reflexivity.
Qed.

(** X8: when the check passes and [Value] is not a string,
    [driverinfo()] raises [AttributeError]: only a [str] has [split]. *)
Theorem driverinfo_needs_a_string
    (w : world) (r : response) items (v : value) :
  answers w (get_request (self w) (lit "driverinfo")) r ->
  accepted r items ->
  lookup (lit "Value") items = Some v ->
  (forall s, v <> VStr s) ->
  exec str_of DriverInfo w
  = (Raise AttributeError, after w (get_request (self w) (lit "driverinfo"))).
Proof.
  intros Hr Hacc Hv Hns. pose proof Hacc as (Hbody & _).
  unfold envelope in Hbody. open_call.
  rewrite Hr, (check_accepted _ Hacc). unfold json, getitem.
  rewrite Hbody, Hv. cbv beta iota.
  destruct v; try reflexivity. now elim (Hns s).
Qed.

Lemma split_length (s : str) (sep : N) :
  List.length (split s sep) = S (count_occ N.eq_dec s sep).
Proof.
  induction s as [|c s IH]; [reflexivity|]. cbn [split].
  destruct (c =? sep)%N eqn:E.
  - apply N.eqb_eq in E. rewrite count_occ_cons_eq by exact E.
    cbn [List.length]. now rewrite IH.
  - apply N.eqb_neq in E. rewrite count_occ_cons_neq by exact E.
    rewrite <- IH. destruct (split s sep) as [|p ps] eqn:S'; [|reflexivity].
    now apply split_nonempty in S'.
Qed.

Lemma strip_keeps_nothing_new (p : str) (x : N) : In x (strip p) -> In x p.
Proof.
  intros Hx. destruct (strip_trimmed p) as (before & behind & Hp & _).
  rewrite Hp. apply in_or_app. right. apply in_or_app. now left.
Qed.

Lemma strip_idempotent (p : str) : strip (strip p) = strip p.
Proof.
  symmetry. apply trimmed_unique.
  destruct (strip_trimmed p) as (_ & _ & _ & _ & _ & Hhd & Hlast).
  exists [], []. rewrite app_nil_r. repeat split; assumption.
Qed.

(** X9: when the check passes and [Value] is a string, [driverinfo()]
    returns a list of strings with one entry more than the string has
    commas; no entry contains a comma, none begins or ends with
    whitespace, and stripping an entry again changes nothing. *)
Theorem driverinfo_list_shape
    (w : world) (r : response) items (s : str) :
  answers w (get_request (self w) (lit "driverinfo")) r ->
  accepted r items ->
  lookup (lit "Value") items = Some (VStr s) ->
  exists entries,
    fst (exec str_of DriverInfo w) = Ok (VList (map VStr entries)) /\
    List.length entries = S (count_occ N.eq_dec s 44%N) /\
    Forall (fun e =>
              ~ In 44%N e /\ strip e = e /\
              (forall c, hd_error e = Some c -> isspace c = false) /\
              (forall c, hd_error (List.rev e) = Some c -> isspace c = false))
           entries.
Proof.
  intros Hr Hacc Hv. pose proof Hacc as (Hbody & _). unfold envelope in Hbody.
  exists (map strip (split s 44%N)). split; [|split].
  - open_call. rewrite Hr, (check_accepted _ Hacc). unfold json, getitem.
    rewrite Hbody, Hv. cbn. now rewrite map_map.
  - rewrite length_map. apply split_length.
  - apply Forall_forall. intros e He. apply in_map_iff in He as (p & <- & Hp).
    pose proof (split_no_sep s 44%N) as Hno. rewrite Forall_forall in Hno.
    destruct (strip_trimmed p) as (_ & _ & _ & _ & _ & Hhd & Hlast).
    repeat split.
    + intros Hin. apply (Hno p Hp). now apply strip_keeps_nothing_new.
    + apply strip_idempotent.
    + exact Hhd.
    + exact Hlast.
Qed.

(** X10: on a client that the constructor has built, the primitives
    call [requests] with the URL
    [{protocol}://{address}/api/v{version}/{type}/{number}/{attribute}]:
    the constructor's URL, a slash, and the attribute as given, for GET
    and for PUT (which hands over its data unchanged). *)
Theorem request_url_spelled_out
    (protocol addr kind attribute : str) (version number : Z) (dat : value)
    (srv : list request -> request -> result response) (log : list request)
    (d : t) :
  __init__ str_of addr kind number protocol version = Ok d ->
  sent (snd (exec str_of (Get attribute) (mkWorld d srv log)))
  = log ++
    [mkRequest GET
       (protocol ++ lit "://" ++ addr ++ lit "/api/v" ++ decimal version
        ++ lit "/" ++ kind ++ lit "/" ++ decimal number
        ++ lit "/" ++ attribute) None] /\
  sent (snd (exec str_of (Put attribute dat) (mkWorld d srv log)))
  = log ++
    [mkRequest PUT
       (protocol ++ lit "://" ++ addr ++ lit "/api/v" ++ decimal version
        ++ lit "/" ++ kind ++ lit "/" ++ decimal number
        ++ lit "/" ++ attribute) (Some dat)].
Proof.
  unfold __init__.
  destruct (convertible version && convertible number); [|discriminate].
  intros Hd. cbn -[decimal] in Hd. injection Hd as <-.
  rewrite !sends_one_request.
  unfold request_of, get_request, put_request, endpoint, after.
  cbn [sent self base_url]. rewrite app_nil_r.
  assert (E : forall tail : str,
    (protocol ++ lit "://" ++ addr ++ lit "/api/v" ++ decimal version
     ++ lit "/" ++ kind ++ lit "/" ++ decimal number) ++ tail
    = protocol ++ lit "://" ++ addr ++ lit "/api/v" ++ decimal version
      ++ lit "/" ++ kind ++ lit "/" ++ decimal number ++ tail).
  { intros tail. now rewrite <- !app_assoc. }
  split; (f_equal; f_equal; f_equal; exact (E (lit "/" ++ attribute))).
Qed.

(** X11: the client keeps nothing between calls: on two states with the
    same client in which the server gives the same answer to the call's
    request, the call ends alike, whatever was sent before. *)
Theorem call_depends_on_answer_only (c : call) (w1 w2 : world) :
  self w1 = self w2 ->
  server w1 (sent w1) (request_of (self w1) c)
  = server w2 (sent w2) (request_of (self w2) c) ->
  fst (exec str_of c w1) = fst (exec str_of c w2).
Proof.
  intros Hself Hsame.
  destruct c as [a args|cmd raw|cmd raw|cmd raw|state| | | | | | |attr|attr dat];
    try destruct state; open_call; rewrite Hsame, Hself;
    (destruct (server w2 _ _) as [r|e]; [|reflexivity]);
    match goal with
    | |- context [__check_error str_of r (after w1 ?rq)] =>
        rewrite (check_any_world r (after w1 rq) (after w2 rq))
    end;
    split_cases; reflexivity.
Qed.

(** X12: a call returns a value only on an accepted response: if a call
    returns [v], the server answered its request with a response whose
    body is an envelope with [ErrorNumber] equal to [0] under a status
    other than 400 and 500; for the operations built on GET alone [v] is
    that envelope's [Value], and for [_put] it is the envelope. *)
Theorem returned_value_was_accepted (c : call) (w : world) (v : value) :
  fst (exec str_of c w) = Ok v ->
  exists r items,
    answers w (request_of (self w) c) r /\
    accepted r items /\
    (returns_get c = true -> lookup (lit "Value") items = Some v) /\
    (forall attr dat, c = Put attr dat -> v = VDict items).
Proof.
  intros Hret.
  destruct (server w (sent w) (request_of (self w) c)) as [r|e] eqn:Hr.
  2:{ rewrite (request_raises_call c w Hr) in Hret. discriminate Hret. }
  destruct (fst (__check_error str_of r w)) as [u|e] eqn:Hc.
  2:{ rewrite (check_raises_call_at c Hr Hc) in Hret. discriminate Hret. }
  destruct (check_ok_accepted _ _ Hc) as (items & Hacc).
  pose proof Hacc as (Hbody & _). unfold envelope in Hbody.
  exists r, items. split; [exact Hr|]. split; [exact Hacc|]. split.
  - intros Hg. revert Hret.
    destruct c as [a args|cmd raw|cmd raw|cmd raw|state| | | | | | |attr|attr dat];
      try destruct state; try discriminate Hg; open_call;
      rewrite Hr, (check_accepted _ Hacc); unfold json, getitem;
      rewrite Hbody; cbv beta iota;
      (destruct (lookup (lit "Value") items); cbn [fst];
       [now intros [= ->] | discriminate]).
  - intros attr dat ->. revert Hret. open_call.
    rewrite Hr, (check_accepted _ Hacc). unfold json. rewrite Hbody.
    cbn [fst]. now intros [= <-].
Qed.

(** Where an [Exception] of the check comes from. *)
Lemma check_exception_origin (r : response) (w : world) (arg : value) :
  fst (__check_error str_of r w) = Raise (Exception arg) ->
  exists items, envelope r items /\
    ((exists number m digits,
        lookup (lit "ErrorNumber") items = Some number /\
        ne_zero number = true /\
        lookup (lit "ErrorMessage") items = Some m /\
        conv_d number = Ok digits /\
        arg = VStr (lit "Error " ++ digits ++ lit ": " ++ conv_s str_of m))
     \/
     (exists number,
        lookup (lit "ErrorNumber") items = Some number /\
        ne_zero number = false /\
        (status_code r = 400 \/ status_code r = 500) /\
        lookup (lit "Value") items = Some arg)).
Proof.
  open_check.
  destruct (body r) as [[]|] eqn:Hbody; try discriminate.
  destruct (lookup (lit "ErrorNumber") items) as [number|] eqn:Hn;
    try discriminate.
  destruct (ne_zero number) eqn:Hz.
  - destruct (lookup (lit "ErrorMessage") items) as [m|] eqn:Hm;
      try discriminate.
    rewrite format_error_any.
    destruct (conv_d number) as [digits|e] eqn:Hd; cbn [fst].
    + intros [= <-]. exists items. split; [exact Hbody|]. left.
      exists number, m, digits. repeat split; assumption.
    + intros [= ->].
      destruct number as [|b|z|f|s|l|l|its]; cbn in Hd; try discriminate Hd.
      destruct f; discriminate Hd.
  - destruct ((status_code r =? 400) || (status_code r =? 500)) eqn:Hs;
      try discriminate.
    destruct (lookup (lit "Value") items) as [v|] eqn:Hv; try discriminate.
    cbn [fst]. intros [= <-]. exists items. split; [exact Hbody|]. right.
    exists number. repeat split; try assumption.
    apply orb_prop in Hs as [Hs|Hs]; apply Z.eqb_eq in Hs; auto.
Qed.

(** X13: the class's own [Exception] has two origins only: when the
    server answered and a call raises [Exception(arg)], either the
    envelope's [ErrorNumber] differs from [0] and [arg] is the text
    [Error <number>: <message>], or it equals [0], the status is 400 or
    500 and [arg] is the envelope's [Value]. *)
Theorem raised_exception_origin
    (c : call) (w : world) (r : response) (arg : value) :
  answers w (request_of (self w) c) r ->
  fst (exec str_of c w) = Raise (Exception arg) ->
  exists items, envelope r items /\
    ((exists number m digits,
        lookup (lit "ErrorNumber") items = Some number /\
        ne_zero number = true /\
        lookup (lit "ErrorMessage") items = Some m /\
        conv_d number = Ok digits /\
        arg = VStr (lit "Error " ++ digits ++ lit ": " ++ conv_s str_of m))
     \/
     (exists number,
        lookup (lit "ErrorNumber") items = Some number /\
        ne_zero number = false /\
        (status_code r = 400 \/ status_code r = 500) /\
        lookup (lit "Value") items = Some arg)).
Proof.
  intros Hr Hraise.
  destruct (fst (__check_error str_of r w)) as [u|e] eqn:Hc.
  - exfalso. destruct (check_ok_accepted _ _ Hc) as (items & Hacc).
    pose proof Hacc as (Hbody & _). unfold envelope in Hbody.
    revert Hraise.
    destruct c as [a args|cmd raw|cmd raw|cmd raw|state| | | | | | |attr|attr dat];
      try destruct state; open_call;
      rewrite Hr, (check_accepted _ Hacc); unfold json, getitem, split_of;
      rewrite Hbody; cbv beta iota;
      try (destruct (lookup (lit "Value") items) as [[]|]);
      cbn [fst]; discriminate.
  - rewrite (check_raises_call_at c Hr Hc) in Hraise. cbn [fst] in Hraise.
    injection Hraise as ->. exact (check_exception_origin _ _ Hc).
Qed.

Lemma uint_digits_inj (u u' : Decimal.uint) :
  uint_digits u = uint_digits u' -> u = u'.
Proof.
  revert u'. induction u as [|u IH|u IH|u IH|u IH|u IH|u IH|u IH|u IH|u IH|u IH];
    intros [|u'|u'|u'|u'|u'|u'|u'|u'|u'|u']; cbn; intros E;
    try discriminate E; try reflexivity;
    injection E as E; f_equal; exact (IH u' E).
Qed.

Lemma decimal_inj (z z' : Z) : decimal z = decimal z' -> z = z'.
Proof.
  unfold decimal. intros E. apply DecimalZ.to_int_inj.
  destruct (Z.to_int z) as [u|u], (Z.to_int z') as [u'|u'].
  - f_equal. now apply uint_digits_inj.
  - destruct u; discriminate E.
  - destruct u'; discriminate E.
  - injection E as E. f_equal. now apply uint_digits_inj.
Qed.

(** X14: two clients built with the same protocol, address, API version
    and device type have the same [base_url] only if they have the same
    device number. *)
Theorem device_number_separates_urls
    (protocol addr kind : str) (version number number' : Z) (d d' : t) :
  __init__ str_of addr kind number protocol version = Ok d ->
  __init__ str_of addr kind number' protocol version = Ok d' ->
  base_url d = base_url d' ->
  number = number'.
Proof.
  unfold __init__.
  destruct (convertible version && convertible number); [|discriminate].
  destruct (convertible version && convertible number'); [|discriminate].
  cbn -[decimal]. intros [= <-] [= <-]. cbn [base_url].
  intros E. apply app_inv_head in E. injection E as E.
  apply app_inv_head in E. injection E as E.
  apply app_inv_head in E. injection E as E.
  apply app_inv_head in E. injection E as E.
  rewrite !app_nil_r in E. now apply decimal_inj.
Qed.

End Properties.

(* ================================================================== *)
(** ** The properties on a sample client *)

(** A rendering of non-string objects, for the runs below. *)
Definition sample_str_of (x : value) : str := lit "<object>".

(** The client [Device("localhost:11111", "telescope", 0, "http", 1)]. *)
Definition sample_device : t :=
  {| address := lit "localhost:11111";
     device_type := lit "telescope";
     device_number := 0;
     api_version := 1;
     base_url := lit "http://localhost:11111/api/v1/telescope/0" |}.

(** A fresh client in front of a server that answers [r] to everything. *)
Definition facing (r : response) : world :=
  {| self := sample_device; server := fun _ _ => Ok r; sent := [] |}.

Definition reply (status : Z) (items : list (str * value)) : response :=
  {| status_code := status; body := Some (VDict items) |}.

Definition not_supported : list (str * value) :=
  [(lit "Value", VStr []); (lit "ErrorNumber", VInt 1);
   (lit "ErrorMessage", VStr (lit "not supported"))].

Definition bad_request : list (str * value) :=
  [(lit "Value", VStr (lit "bad request")); (lit "ErrorNumber", VInt 0);
   (lit "ErrorMessage", VStr [])].

Definition fine (v : value) : list (str * value) :=
  [(lit "Value", v); (lit "ErrorNumber", VInt 0);
   (lit "ErrorMessage", VStr [])].

Example sample_device_built :
  __init__ sample_str_of (lit "localhost:11111") (lit "telescope") 0
    (lit "http") 1
  = Ok sample_device.
Proof. reflexivity. Qed.

Lemma accepted_fine (status : Z) (v : value) :
  status <> 400 -> status <> 500 -> accepted (reply status (fine v)) (fine v).
Proof.
  intros H4 H5. split; [reflexivity|]. split; [|split; assumption].
  exists (VInt 0). split; reflexivity.
Defined.

Lemma protocol_error_is_raised_witness :
  exec sample_str_of (CommandBool (VStr (lit ":GR#")) (VBool true))
    (facing (reply 200 not_supported))
  = (Raise (Exception (VStr (lit "Error 1: not supported"))),
     after (facing (reply 200 not_supported))
       (put_request sample_device (lit "commandbool")
          (VDict [(lit "Command", VStr (lit ":GR#"));
                  (lit "Raw", VBool true)]))).
Proof.
  apply (@protocol_error_is_raised sample_str_of
           (CommandBool (VStr (lit ":GR#")) (VBool true))
           (facing (reply 200 not_supported)) (reply 200 not_supported)
           not_supported 1 (lit "not supported"));
    [reflexivity | reflexivity | reflexivity | discriminate | reflexivity].
Defined.

Lemma transport_error_carries_value_witness :
  exec sample_str_of Name (facing (reply 400 bad_request))
  = (Raise (Exception (VStr (lit "bad request"))),
     after (facing (reply 400 bad_request))
       (get_request sample_device (lit "name"))).
Proof.
  apply (@transport_error_carries_value sample_str_of Name
           (facing (reply 400 bad_request)) (reply 400 bad_request)
           bad_request (VInt 0) (VStr (lit "bad request")));
    [reflexivity | reflexivity | reflexivity | reflexivity
     | left; reflexivity | reflexivity].
Defined.

Lemma other_status_is_not_an_error_witness :
  __check_error sample_str_of (reply 404 (fine (VInt 3)))
    (facing (reply 404 (fine (VInt 3))))
  = (Ok tt, facing (reply 404 (fine (VInt 3)))) /\
  fst (exec sample_str_of InterfaceVersion (facing (reply 404 (fine (VInt 3)))))
  = Ok (VInt 3).
Proof.
  destruct (@other_status_is_not_an_error sample_str_of InterfaceVersion
              (facing (reply 404 (fine (VInt 3)))) (reply 404 (fine (VInt 3)))
              (fine (VInt 3)) (VInt 0)
              eq_refl eq_refl eq_refl eq_refl
              ltac:(discriminate) ltac:(discriminate))
    as (Hcheck & Hget & _ & _).
  split; [exact Hcheck|]. exact (Hget eq_refl (VInt 3) eq_refl).
Defined.

Lemma connected_reads_or_writes_witness :
  fst (exec sample_str_of (Connected VNone)
         (facing (reply 200 (fine (VBool true)))))
  = Ok (VBool true) /\
  exec sample_str_of (Connected (VBool false))
    (facing (reply 200 (fine VNone)))
  = (Ok VNone,
     after (facing (reply 200 (fine VNone)))
       (put_request sample_device (lit "connected")
          (VDict [(lit "Connected", VBool false)]))).
Proof.
  split.
  - destruct (@connected_reads_or_writes sample_str_of
                (facing (reply 200 (fine (VBool true)))) (VBool true)
                ltac:(discriminate)) as (_ & Hget & _ & _).
    apply (Hget (reply 200 (fine (VBool true))) (fine (VBool true)));
      [reflexivity | apply accepted_fine; discriminate | reflexivity].
  - reflexivity.
Defined.

Lemma driverinfo_splits_and_trims_witness :
  exists pieces,
    pieces <> [] /\
    join 44%N pieces = lit "A, B ,C" /\
    Forall (fun p => ~ In 44%N p) pieces /\
    fst (exec sample_str_of DriverInfo
           (facing (reply 200 (fine (VStr (lit "A, B ,C"))))))
    = Ok (VList (map VStr (map strip pieces))) /\
    Forall (fun p => trimmed p (strip p)) pieces /\
    (lit "A, B ,C" = lit "A, B ,C" ->
     fst (exec sample_str_of DriverInfo
            (facing (reply 200 (fine (VStr (lit "A, B ,C"))))))
     = Ok (VList [VStr (lit "A"); VStr (lit "B"); VStr (lit "C")])).
Proof.
  apply (@driverinfo_splits_and_trims sample_str_of
           (facing (reply 200 (fine (VStr (lit "A, B ,C")))))
           (reply 200 (fine (VStr (lit "A, B ,C"))))
           (fine (VStr (lit "A, B ,C"))) (lit "A, B ,C"));
    [reflexivity | apply accepted_fine; discriminate | reflexivity].
Defined.

Lemma description_same_as_name_witness :
  fst (exec sample_str_of Description
         (facing (reply 200 (fine (VStr (lit "Simulator"))))))
  = fst (exec sample_str_of Name
           (after (facing (reply 200 (fine (VStr (lit "Simulator")))))
              (get_request sample_device (lit "name")))).
Proof.
  apply (@description_same_as_name sample_str_of
           (facing (reply 200 (fine (VStr (lit "Simulator")))))
           (after (facing (reply 200 (fine (VStr (lit "Simulator")))))
              (get_request sample_device (lit "name")))
           eq_refl eq_refl).
Defined.

Lemma missing_error_number_fails_witness :
  exec sample_str_of SupportedActions
    (facing (reply 200 [(lit "Value", VList [])]))
  = (Raise (KeyError (lit "ErrorNumber")),
     after (facing (reply 200 [(lit "Value", VList [])]))
       (get_request sample_device (lit "supportedactions"))).
Proof.
  apply (@missing_error_number_fails sample_str_of SupportedActions
           (facing (reply 200 [(lit "Value", VList [])]))
           (reply 200 [(lit "Value", VList [])])
           (VDict [(lit "Value", VList [])]) eq_refl eq_refl).
  intros items E. injection E as <-. reflexivity.
Defined.

(** Further runs of the class on the sample client. *)

Example value_field_missing :
  fst (exec sample_str_of Name (facing (reply 200 [(lit "ErrorNumber", VInt 0)])))
  = Raise (KeyError (lit "Value")).
Proof. reflexivity. Qed.

Example body_not_json :
  fst (exec sample_str_of Name (facing {| status_code := 400; body := None |}))
  = Raise JSONDecodeError.
Proof. reflexivity. Qed.

Example transport_failure :
  exec sample_str_of Name
    {| self := sample_device;
       server := fun _ _ => Raise RequestException;
       sent := [] |}
  = (Raise RequestException,
     {| self := sample_device;
        server := fun _ _ => Raise RequestException;
        sent := [get_request sample_device (lit "name")] |}).
Proof. reflexivity. Qed.

Example error_number_true :
  fst (exec sample_str_of Name
         (facing (reply 200 [(lit "ErrorNumber", VBool true);
                             (lit "ErrorMessage", VStr (lit "x"))])))
  = Raise (Exception (VStr (lit "Error 1: x"))).
Proof. reflexivity. Qed.

Example driverinfo_not_a_string :
  fst (exec sample_str_of DriverInfo (facing (reply 200 (fine (VInt 5)))))
  = Raise AttributeError.
Proof. reflexivity. Qed.

Example park_request :
  sent (snd (exec sample_str_of (Action (VStr (lit "park")) [])
               (facing (reply 200 (fine VNone)))))
  = [mkRequest PUT (lit "http://localhost:11111/api/v1/telescope/0/action")
       (Some (VDict [(lit "Action", VStr (lit "park"));
                     (lit "Parameters", VTuple [])]))].
Proof. reflexivity. Qed.

Lemma base_url_matches_template_witness :
  exists d,
    __init__ sample_str_of (lit "localhost:11111") (lit "telescope") 0
      (lit "http") 1 = Ok d /\
    fill url_template None
      [(lit "protocol", lit "http"); (lit "address", lit "localhost:11111");
       (lit "api_version", decimal 1); (lit "device_type", lit "telescope");
       (lit "device_number", decimal 0)]
    = Some (base_url d) /\
    base_url d
    = lit "http" ++ lit "://" ++ lit "localhost:11111" ++ lit "/api/v"
      ++ decimal 1 ++ lit "/" ++ lit "telescope" ++ lit "/" ++ decimal 0 /\
    address d = lit "localhost:11111" /\ device_type d = lit "telescope" /\
    device_number d = 0 /\ api_version d = 1.
Proof.
  apply (@base_url_matches_template sample_str_of (lit "http")
           (lit "localhost:11111") 1 (lit "telescope") 0);
    reflexivity.
Defined.

(** The further properties on the sample client. *)

Lemma commands_put_command_and_raw_witness :
  fst (exec sample_str_of (CommandBool (VStr (lit ":GR#")) (VBool false))
         (facing (reply 200 (fine (VBool true)))))
  = Ok (VBool true).
Proof.
  destruct (@commands_put_command_and_raw sample_str_of
              (facing (reply 200 (fine (VBool true))))
              (VStr (lit ":GR#")) (VBool false)
              (CommandBool (VStr (lit ":GR#")) (VBool false))
              (lit "commandbool"))
    as [_ Hret].
  - right. left. reflexivity.
  - apply (Hret (reply 200 (fine (VBool true))) (fine (VBool true)));
      [reflexivity | apply accepted_fine; discriminate | reflexivity].
Defined.

Definition unreachable : world :=
  {| self := sample_device;
     server := fun _ _ => Raise RequestException;
     sent := [] |}.

Lemma transport_exception_propagates_witness :
  exec sample_str_of (Connected (VBool true)) unreachable
  = (Raise RequestException,
     after unreachable
       (put_request sample_device (lit "connected")
          (VDict [(lit "Connected", VBool true)]))).
Proof.
  apply (@transport_exception_propagates sample_str_of
           (Connected (VBool true)) unreachable RequestException).
  reflexivity.
Defined.

Lemma undecodable_body_raises_witness :
  exec sample_str_of Name (facing {| status_code := 500; body := None |})
  = (Raise JSONDecodeError,
     after (facing {| status_code := 500; body := None |})
       (get_request sample_device (lit "name"))).
Proof.
  apply (@undecodable_body_raises sample_str_of Name
           (facing {| status_code := 500; body := None |})
           {| status_code := 500; body := None |});
    reflexivity.
Defined.

Definition number_as_text : list (str * value) :=
  [(lit "Value", VStr []); (lit "ErrorNumber", VStr (lit "1031"));
   (lit "ErrorMessage", VStr (lit "not connected"))].

Lemma nonzero_error_number_formats_or_raises_witness :
  exec sample_str_of Name (facing (reply 200 number_as_text))
  = (Raise TypeError,
     after (facing (reply 200 number_as_text))
       (get_request sample_device (lit "name"))).
Proof.
  exact (@nonzero_error_number_formats_or_raises sample_str_of Name
           (facing (reply 200 number_as_text)) (reply 200 number_as_text)
           number_as_text (VStr (lit "1031")) (VStr (lit "not connected"))
           eq_refl eq_refl eq_refl eq_refl eq_refl).
Defined.

Lemma missing_error_message_raises_witness :
  exec sample_str_of Name (facing (reply 200 [(lit "ErrorNumber", VInt 5)]))
  = (Raise (KeyError (lit "ErrorMessage")),
     after (facing (reply 200 [(lit "ErrorNumber", VInt 5)]))
       (get_request sample_device (lit "name"))).
Proof.
  exact (@missing_error_message_raises sample_str_of Name
           (facing (reply 200 [(lit "ErrorNumber", VInt 5)]))
           (reply 200 [(lit "ErrorNumber", VInt 5)])
           [(lit "ErrorNumber", VInt 5)] (VInt 5)
           eq_refl eq_refl eq_refl eq_refl eq_refl).
Defined.

Lemma missing_value_raises_witness :
  exec sample_str_of (Action (VStr (lit "park")) [])
    (facing (reply 200 [(lit "ErrorNumber", VInt 0)]))
  = (Raise (KeyError (lit "Value")),
     after (facing (reply 200 [(lit "ErrorNumber", VInt 0)]))
       (put_request sample_device (lit "action")
          (VDict [(lit "Action", VStr (lit "park"));
                  (lit "Parameters", VTuple [])]))).
Proof.
  apply (@missing_value_raises sample_str_of (Action (VStr (lit "park")) [])
           (facing (reply 200 [(lit "ErrorNumber", VInt 0)]))
           (reply 200 [(lit "ErrorNumber", VInt 0)])
           [(lit "ErrorNumber", VInt 0)] (VInt 0)
           eq_refl eq_refl eq_refl eq_refl eq_refl).
  right. right. reflexivity.
Defined.

Lemma driverinfo_needs_a_string_witness :
  exec sample_str_of DriverInfo (facing (reply 200 (fine (VInt 5))))
  = (Raise AttributeError,
     after (facing (reply 200 (fine (VInt 5))))
       (get_request sample_device (lit "driverinfo"))).
Proof.
  apply (@driverinfo_needs_a_string sample_str_of
           (facing (reply 200 (fine (VInt 5)))) (reply 200 (fine (VInt 5)))
           (fine (VInt 5)) (VInt 5));
    [reflexivity | apply accepted_fine; discriminate | reflexivity
     | discriminate].
Defined.

Lemma driverinfo_list_shape_witness :
  exists entries,
    fst (exec sample_str_of DriverInfo
           (facing (reply 200 (fine (VStr (lit " a ,, b"))))))
    = Ok (VList (map VStr entries)) /\
    List.length entries = S (count_occ N.eq_dec (lit " a ,, b") 44%N) /\
    Forall (fun e =>
              ~ In 44%N e /\ strip e = e /\
              (forall c, hd_error e = Some c -> isspace c = false) /\
              (forall c, hd_error (List.rev e) = Some c -> isspace c = false))
           entries.
Proof.
  apply (@driverinfo_list_shape sample_str_of
           (facing (reply 200 (fine (VStr (lit " a ,, b")))))
           (reply 200 (fine (VStr (lit " a ,, b"))))
           (fine (VStr (lit " a ,, b"))) (lit " a ,, b"));
    [reflexivity | apply accepted_fine; discriminate | reflexivity].
Defined.

Lemma call_depends_on_answer_only_witness :
  fst (exec sample_str_of DriverVersion
         (facing (reply 200 (fine (VStr (lit "1.0"))))))
  = fst (exec sample_str_of DriverVersion
           (after (facing (reply 200 (fine (VStr (lit "1.0")))))
              (get_request sample_device (lit "name")))).
Proof.
  apply (@call_depends_on_answer_only sample_str_of DriverVersion
           (facing (reply 200 (fine (VStr (lit "1.0")))))
           (after (facing (reply 200 (fine (VStr (lit "1.0")))))
              (get_request sample_device (lit "name")))
           eq_refl eq_refl).
Defined.

Lemma returned_value_was_accepted_witness :
  exists r items,
    answers (facing (reply 404 (fine (VInt 2))))
      (request_of sample_device InterfaceVersion) r /\
    accepted r items /\
    (returns_get InterfaceVersion = true ->
     lookup (lit "Value") items = Some (VInt 2)) /\
    (forall attr dat, InterfaceVersion = Put attr dat -> VInt 2 = VDict items).
Proof.
  apply (@returned_value_was_accepted sample_str_of InterfaceVersion
           (facing (reply 404 (fine (VInt 2)))) (VInt 2)).
  reflexivity.
Defined.

Lemma raised_exception_origin_witness :
  exists items, envelope (reply 500 bad_request) items /\
    ((exists number m digits,
        lookup (lit "ErrorNumber") items = Some number /\
        ne_zero number = true /\
        lookup (lit "ErrorMessage") items = Some m /\
        conv_d number = Ok digits /\
        VStr (lit "bad request")
        = VStr (lit "Error " ++ digits ++ lit ": " ++ conv_s sample_str_of m))
     \/
     (exists number,
        lookup (lit "ErrorNumber") items = Some number /\
        ne_zero number = false /\
        (status_code (reply 500 bad_request) = 400 \/
         status_code (reply 500 bad_request) = 500) /\
        lookup (lit "Value") items = Some (VStr (lit "bad request")))).
Proof.
  apply (@raised_exception_origin sample_str_of SupportedActions
           (facing (reply 500 bad_request)) (reply 500 bad_request)
           (VStr (lit "bad request")));
    reflexivity.
Defined.

Lemma request_url_spelled_out_witness :
  sent (snd (exec sample_str_of (Get (lit "utcdate"))
               (mkWorld sample_device (fun _ _ => Raise RequestException) [])))
  = [] ++
    [mkRequest GET
       (lit "http" ++ lit "://" ++ lit "localhost:11111" ++ lit "/api/v"
        ++ decimal 1 ++ lit "/" ++ lit "telescope" ++ lit "/" ++ decimal 0
        ++ lit "/" ++ lit "utcdate") None] /\
  sent (snd (exec sample_str_of (Put (lit "utcdate") (VDict []))
               (mkWorld sample_device (fun _ _ => Raise RequestException) [])))
  = [] ++
    [mkRequest PUT
       (lit "http" ++ lit "://" ++ lit "localhost:11111" ++ lit "/api/v"
        ++ decimal 1 ++ lit "/" ++ lit "telescope" ++ lit "/" ++ decimal 0
        ++ lit "/" ++ lit "utcdate") (Some (VDict []))].
Proof.
  apply (@request_url_spelled_out sample_str_of (lit "http")
           (lit "localhost:11111") (lit "telescope") (lit "utcdate") 1 0
           (VDict []) (fun _ _ => Raise RequestException) [] sample_device).
  reflexivity.
Defined.

Lemma device_number_separates_urls_witness : 0 = 0.
Proof.
  apply (@device_number_separates_urls sample_str_of (lit "http")
           (lit "localhost:11111") (lit "telescope") 1 0 0
           sample_device sample_device);
    reflexivity.
Defined.

End Device.
